(** * ReduxSocketMiddleware: the socket middleware of src/index.tsx

    A shallow embedding of [socketMiddleware], [defaultHandle] and
    [actionCreator], and the properties of the middleware's contract.

    JavaScript values are an inductive type; objects are property lists in
    the order of their literal; functions are known by reference.  The three
    collaborators of the middleware ([dispatch], [next] and the socket) are
    interfaces: every call made on them is recorded in a log, and their
    answers come from an instance the theorems quantify over. *)

From Stdlib Require Import String List ZArith Bool Lia DecimalString.
Import ListNotations.
Open Scope string_scope.

Local Set Warnings "-register-all,-notation-for-abbreviation".

(* ================================================================== *)
(** ** JavaScript values *)

(** A function value is known by reference.  [Extern] is a function of the
    application ([name] is its [.name] property); [Closure] is the arrow
    function that [defaultHandle(event)] returns: it captures [event], and
    being an anonymous arrow function its [.name] is the empty string. *)
Inductive Value : Type :=
  | VUndefined
  | VNull
  | VBool (b : bool)
  | VNum (n : Z)
  | VStr (s : string)
  | VFun (f : Func)
  | VObj (props : list (string * Value))
with Func : Type :=
  | Extern (ref : nat) (name : string)
  | Closure (ref : nat) (event : Value).

Definition Obj : Type := list (string * Value).

(** [o.key]: the value of the first property named [key], [undefined] when
    the object has none (this is also what destructuring yields). *)
Fixpoint get (o : Obj) (key : string) : Value :=
  match o with
  | [] => VUndefined
  | (k, v) :: rest => if String.eqb k key then v else get rest key
  end.

(** [typeof v === 'function'] *)
Definition is_function (v : Value) : bool :=
  match v with
  | VFun _ => true
  | _ => false
  end.

(** [f.name] *)
Definition fn_name (f : Func) : string :=
  match f with
  | Extern _ name => name
  | Closure _ _ => ""
  end.

(** [v === s] for a string constant [s]: strict equality, no coercion. *)
Definition strict_eq_string (v : Value) (s : string) : bool :=
  match v with
  | VStr t => String.eqb t s
  | _ => false
  end.

(** Equality of values as a boolean function; on functions it compares the
    references. *)
Fixpoint Value_eqb (a b : Value) {struct a} : bool :=
  match a, b with
  | VUndefined, VUndefined => true
  | VNull, VNull => true
  | VBool x, VBool y => Bool.eqb x y
  | VNum x, VNum y => Z.eqb x y
  | VStr x, VStr y => String.eqb x y
  | VFun f, VFun g => Func_eqb f g
  | VObj p, VObj q =>
      (fix props_eqb (p q : list (string * Value)) {struct p} : bool :=
         match p, q with
         | [], [] => true
         | (k, v) :: p', (k', v') :: q' =>
             String.eqb k k' && Value_eqb v v' && props_eqb p' q'
         | _, _ => false
         end) p q
  | _, _ => false
  end
with Func_eqb (f g : Func) {struct f} : bool :=
  match f, g with
  | Extern r n, Extern r' n' => Nat.eqb r r' && String.eqb n n'
  | Closure r e, Closure r' e' => Nat.eqb r r' && Value_eqb e e'
  | _, _ => false
  end.

(* ================================================================== *)
(** ** The action vocabulary *)

Module ACTIONS.
Definition SUBSCRIBE : string := "SOCKET_IO_SUBSCRIBE".
Definition UNSUBSCRIBE : string := "SOCKET_IO_UNSUBSCRIBE".
Definition EMIT : string := "SOCKET_IO_EMIT".
Definition EMIT_EVENT : string := "SOCKET_IO_EMIT_EVENT".
Definition EVENT_RECEIVED : string := "SOCKET_IO_EVENT_RECEIVED".
End ACTIONS.

(** The three constructors.  An argument that the caller leaves out
    ([subscribe(event)]) arrives as [undefined]. *)
Module actionCreator.
Definition emit (event : string) (data : Value) : Obj :=
  [ ("type", VStr ACTIONS.EMIT);
    ("event", VStr event);
    ("data", data) ].

Definition subscribe (event : string) (handle : Value) : Obj :=
  [ ("type", VStr ACTIONS.SUBSCRIBE);
    ("event", VStr event);
    ("handle", handle) ].

Definition unsubscribe (event : string) (handle : Value) : Obj :=
  [ ("type", VStr ACTIONS.UNSUBSCRIBE);
    ("event", VStr event);
    ("handle", handle) ].
End actionCreator.

(** What the middleware receives: [action: Function | SocketAction]. *)
Inductive Action : Type :=
  | ActFunction (f : Func)
  | ActObject (o : Obj).

(* ================================================================== *)
(** ** Collaborators and effects *)

(** A call either returns or throws an [Error] with a message. *)
Inductive Completion (A : Type) : Type :=
  | Normal (a : A)
  | Throw (message : string).
Arguments Normal {A} a.
Arguments Throw {A} message.

(** The calls the middleware and its handlers make on their collaborators,
    as they appear, in order, in the log. *)
Inductive Call : Type :=
  | CallDispatch (action : Obj)                       (* dispatch(action) *)
  | CallNext (action : Action)                        (* next(action) *)
  | CallOn (event : Value) (handler : Func)           (* socket.on(event, handler) *)
  | CallRemoveListener (event : Value) (handler : Func)
                                                      (* socket.removeListener(event, handler) *)
  | CallEmit (event data : Value)                     (* socket.emit(event, data) *)
  | CallListener (f : Func) (data : Value).           (* the socket calls its listener f(data) *)

(** The dispatch pipeline: [dispatch] of the [MiddlewareAPI], the
    continuation [next], and the application's own functions.  Each answers
    with a value and moves to a new state. *)
Class Pipeline (P : Type) : Type := {
  pipeline_dispatch : Obj -> P -> Value * P;
  pipeline_next : Action -> P -> Value * P;
  pipeline_apply : Func -> Value -> P -> Value * P
}.

(** The socket [io()] returns.  [channel_listeners event c] are the
    callbacks an inbound [event] is delivered to, in order. *)
Class Channel (C : Type) : Type := {
  channel_on : Value -> Func -> C -> C;
  channel_removeListener : Value -> Func -> C -> C;
  channel_emit : Value -> Value -> C -> Value * C;
  channel_listeners : Value -> C -> list Func
}.

Section Middleware.

(** The string a template literal puts for a value that is not already a
    string.  The conversion is taken to succeed: it always does on
    [undefined], [null], booleans, numbers and strings; an object or a
    function whose conversion throws is not covered, and the theorems that
    depend on the conversion succeeding ask for a string or a primitive
    event. *)
Variable ToString : Value -> string.

Context {P C : Type} `{Pipeline P} `{Channel C}.

(** [`${v}`] *)
Definition template (v : Value) : string :=
  match v with
  | VStr s => s
  | _ => ToString v
  end.

(** The state a run threads: the log of calls, the states of the two
    collaborators (the socket is owned by the middleware alone), and the
    next free closure reference. *)
Record World : Type := mkWorld {
  log : list Call;
  pipe : P;
  chan : C;
  fresh : nat
}.

Definition M (A : Type) : Type := World -> Completion A * World.

Definition ret {A : Type} (a : A) : M A := fun w => (Normal a, w).

Definition bind {A B : Type} (m : M A) (k : A -> M B) : M B :=
  fun w =>
    match m w with
    | (Normal a, w') => k a w'
    | (Throw msg, w') => (Throw msg, w')
    end.

Definition throw {A : Type} (message : string) : M A :=
  fun w => (Throw message, w).

Notation "x <- m ;; k" := (bind m (fun x => k))
  (at level 100, m at next level, right associativity).
Notation "m ;;; k" := (bind m (fun _ => k))
  (at level 100, right associativity).

Definition dispatch (action : Obj) : M Value :=
  fun w =>
    (Normal (fst (pipeline_dispatch action (pipe w))),
     mkWorld (log w ++ [CallDispatch action])
             (snd (pipeline_dispatch action (pipe w))) (chan w) (fresh w)).

Definition next (action : Action) : M Value :=
  fun w =>
    (Normal (fst (pipeline_next action (pipe w))),
     mkWorld (log w ++ [CallNext action])
             (snd (pipeline_next action (pipe w))) (chan w) (fresh w)).

Definition socket_on (event : Value) (handler : Func) : M unit :=
  fun w =>
    (Normal tt,
     mkWorld (log w ++ [CallOn event handler])
             (pipe w) (channel_on event handler (chan w)) (fresh w)).

Definition socket_removeListener (event : Value) (handler : Func) : M unit :=
  fun w =>
    (Normal tt,
     mkWorld (log w ++ [CallRemoveListener event handler])
             (pipe w) (channel_removeListener event handler (chan w)) (fresh w)).

Definition socket_emit (event data : Value) : M Value :=
  fun w =>
    (Normal (fst (channel_emit event data (chan w))),
     mkWorld (log w ++ [CallEmit event data])
             (pipe w) (snd (channel_emit event data (chan w))) (fresh w)).

(** [defaultHandle(event)]: a new closure over [event] (and [dispatch]). *)
Definition defaultHandle (event : Value) : M Func :=
  fun w =>
    (Normal (Closure (fresh w) event),
     mkWorld (log w) (pipe w) (chan w) (S (fresh w))).

(** The body of that closure:
    [(data) => dispatch({ type: `RECEIVE: ${event}`, data })]. *)
Definition defaultHandle_body (event data : Value) : M Value :=
  dispatch [ ("type", VStr ("RECEIVE: " ++ template event));
             ("data", data) ].

(** [f(data)] *)
Definition invoke (f : Func) (data : Value) : M Value :=
  match f with
  | Closure _ event => defaultHandle_body event data
  | Extern _ _ =>
      fun w =>
        (Normal (fst (pipeline_apply f data (pipe w))),
         mkWorld (log w)
                 (snd (pipeline_apply f data (pipe w))) (chan w) (fresh w))
  end.

(** The function [socketMiddleware()] installs, with [dispatch], [next]
    and [socket] the collaborators above. *)
Definition socketMiddleware (action : Action) : M Value :=
  match action with
  | ActFunction _ => next action
  | ActObject o =>
      let type := get o "type" in
      let event := get o "event" in
      let handle := get o "handle" in
      let data := get o "data" in
      if strict_eq_string type ACTIONS.SUBSCRIBE then
        dispatch [ ("type", VStr ("SUBSCRIBE: " ++ template event));
                   ("event", event);
                   ("handle", match handle with
                              | VFun f => VStr ("function: " ++ fn_name f)
                              | _ => handle
                              end) ] ;;;
        eventHandler <- match handle with
                        | VFun f => ret f
                        | _ => defaultHandle event
                        end ;;
        socket_on event eventHandler ;;;
        ret (VFun eventHandler)
      else if strict_eq_string type ACTIONS.UNSUBSCRIBE then
        dispatch [ ("type", VStr ("UNSUBSCRIBE " ++ template event));
                   ("event", event) ] ;;;
        match handle with
        | VFun f =>
            socket_removeListener event f ;;;
            ret VUndefined
        | _ =>
            throw ("Unable to unsubscribe to " ++ template event
                   ++ ", without a function reference.")
        end
      else if strict_eq_string type ACTIONS.EMIT then
        dispatch [ ("type", VStr ("EMIT: " ++ template event));
                   ("action", VStr "SOCKET.IO EMIT");
                   ("data", data) ] ;;;
        socket_emit event data
      else
        next action
  end.

(** An inbound [event] carrying [data]: the socket calls its listeners
    for [event] one after the other and drops what they return. *)
Definition call_listener (f : Func) (data : Value) : M Value :=
  fun w =>
    invoke f data
      (mkWorld (log w ++ [CallListener f data]) (pipe w) (chan w) (fresh w)).

Fixpoint call_listeners (fs : list Func) (data : Value) : M unit :=
  match fs with
  | [] => ret tt
  | f :: rest => call_listener f data ;;; call_listeners rest data
  end.

Definition deliver (event data : Value) : M unit :=
  fun w => call_listeners (channel_listeners event (chan w)) data w.

(** The calls made between world [w] and a later world [w']. *)
Definition calls_since (w w' : World) : list Call :=
  skipn (length (log w)) (log w').

(** A caller that dispatches [actions] one after the other; an action that
    throws ends its own dispatch only, what it had done by then stays. *)
Definition dispatch_all (actions : list Action) (w : World) : World :=
  fold_left (fun w action => snd (socketMiddleware action w)) actions w.

End Middleware.

(** Whether the middleware takes [action] for one of its three intents:
    an object whose [type] is strictly equal to one of the constants. *)
Definition is_intent (action : Action) : bool :=
  match action with
  | ActFunction _ => false
  | ActObject o =>
      strict_eq_string (get o "type") ACTIONS.SUBSCRIBE
      || strict_eq_string (get o "type") ACTIONS.UNSUBSCRIBE
      || strict_eq_string (get o "type") ACTIONS.EMIT
  end.

(** The actions dispatched among a list of calls, in order. *)
Fixpoint dispatched (calls : list Call) : list Obj :=
  match calls with
  | [] => []
  | CallDispatch action :: rest => action :: dispatched rest
  | _ :: rest => dispatched rest
  end.

Definition is_next_call (c : Call) : bool :=
  match c with
  | CallNext _ => true
  | _ => false
  end.

Definition is_channel_call (c : Call) : bool :=
  match c with
  | CallOn _ _ | CallRemoveListener _ _ | CallEmit _ _ => true
  | _ => false
  end.

(** The calls a delivery of [data] to the listeners [fs] adds to the log. *)
Fixpoint listener_calls (ToString : Value -> string) (fs : list Func)
    (data : Value) : list Call :=
  match fs with
  | [] => []
  | f :: rest =>
      CallListener f data ::
      match f with
      | Closure _ event =>
          [ CallDispatch [ ("type", VStr ("RECEIVE: " ++ template ToString event));
                           ("data", data) ] ]
      | Extern _ _ => []
      end ++ listener_calls ToString rest data
  end.

(** The handlers of the [socket.on] calls among a list of calls, in
    order. *)
Fixpoint registered (calls : list Call) : list Func :=
  match calls with
  | [] => []
  | CallOn _ handler :: rest => handler :: registered rest
  | _ :: rest => registered rest
  end.

(** The references of the closures of [defaultHandle] among functions. *)
Fixpoint closure_refs (fs : list Func) : list nat :=
  match fs with
  | [] => []
  | Closure ref _ :: rest => ref :: closure_refs rest
  | Extern _ _ :: rest => closure_refs rest
  end.

(** The closures registered so far are pairwise different and older than
    the next closure reference. *)
Definition closures_in_order {P C : Type} (w : @World P C) : Prop :=
  NoDup (closure_refs (registered (log w)))
  /\ Forall (fun ref => ref < fresh w) (closure_refs (registered (log w))).

(** Whether the action hands a closure of [defaultHandle] back to the
    middleware as its [handle]. *)
Definition carries_closure (action : Action) : bool :=
  match action with
  | ActFunction _ => false
  | ActObject o =>
      match get o "handle" with
      | VFun (Closure _ _) => true
      | _ => false
      end
  end.

(** Whether a value is a primitive: [`${v}`] cannot fail on it. *)
Definition is_primitive (v : Value) : bool :=
  match v with
  | VFun _ | VObj _ => false
  | _ => true
  end.

(** Whether the template literals that processing [action] evaluates are
    sure to succeed: the action is no intent (none is evaluated then), or
    its [event] is a primitive. *)
Definition primitive_event (action : Action) : bool :=
  match action with
  | ActFunction _ => true
  | ActObject o => negb (is_intent action) || is_primitive (get o "event")
  end.

(** [key in o] *)
Definition has_key (o : Obj) (key : string) : bool :=
  existsb (fun p => String.eqb (fst p) key) o.

(** The [type] of each dispatched action among a list of calls. *)
Definition dispatched_types (calls : list Call) : list Value :=
  map (fun action => get action "type") (dispatched calls).

(** Whether a completion is a throw. *)
Definition is_throw {A : Type} (c : Completion A) : bool :=
  match c with
  | Throw _ => true
  | Normal _ => false
  end.

(* ================================================================== *)
(** ** A channel and a pipeline to run the middleware against *)

(** Modelled from the spec: the channel.  The socket is the client of
    socket.io, a library outside src/.  The spec (sections 3 and 6) asks of
    the channel: registrations are a relation between event names and
    callbacks that the channel owns; [addListener(eventName, callback)]
    registers [callback] to be invoked with the event data on arrival;
    [removeListener(eventName, callback)] removes a previously registered
    callback by reference equality; [send(eventName, payload)] is
    fire-and-forget. *)
Module Registry.

Record t : Type := mk {
  listeners : list (Value * Func);
  sent : list (Value * Value)
}.

Definition empty : t := mk [] [].

Definition same_entry (event : Value) (handler : Func) (e : Value * Func) : bool :=
  Value_eqb (fst e) event && Func_eqb (snd e) handler.

Definition on (event : Value) (handler : Func) (r : t) : t :=
  mk (listeners r ++ [(event, handler)]) (sent r).

Definition removeListener (event : Value) (handler : Func) (r : t) : t :=
  mk (filter (fun e => negb (same_entry event handler e)) (listeners r)) (sent r).

Definition emit (event data : Value) (r : t) : Value * t :=
  (VUndefined, mk (listeners r) (sent r ++ [(event, data)])).

Definition listeners_for (event : Value) (r : t) : list Func :=
  map snd (filter (fun e => Value_eqb (fst e) event) (listeners r)).

#[global] Instance channel : Channel t := {
  channel_on := on;
  channel_removeListener := removeListener;
  channel_emit := emit;
  channel_listeners := listeners_for
}.

End Registry.

(** A store with no further stage: [dispatch] and [next] hand back the
    action they were given, as the store's own dispatch does, and keep the
    actions seen; the application's functions return [undefined]. *)
Module PlainStore.

Definition t : Type := list Action.

Definition value_of (action : Action) : Value :=
  match action with
  | ActFunction f => VFun f
  | ActObject o => VObj o
  end.

#[global] Instance pipeline : Pipeline t := {
  pipeline_dispatch := fun action seen => (VObj action, (seen ++ [ActObject action])%list);
  pipeline_next := fun action seen => (value_of action, (seen ++ [action])%list);
  pipeline_apply := fun _ _ seen => (VUndefined, seen)
}.

End PlainStore.

(** Worlds of the plain store and the registry channel. *)
Definition SampleWorld : Type := @World PlainStore.t Registry.t.

(** The world before anything happened. *)
Definition initial : SampleWorld :=
  mkWorld [] [] Registry.empty 0.

(** *** Sample inputs *)

(** The conversion used with the samples: what JavaScript answers for
    [undefined], [null], booleans, strings, integers (below 10^21 in
    magnitude, which it prints in full) and objects without a [toString]
    of their own.  No sample converts a function; for one it would give
    the source text, which the model does not have. *)
Definition ToString_samples (v : Value) : string :=
  match v with
  | VUndefined => "undefined"
  | VNull => "null"
  | VBool true => "true"
  | VBool false => "false"
  | VNum n => NilZero.string_of_int (Z.to_int n)
  | VStr s => s
  | VFun _ => "function"
  | VObj _ => "[object Object]"
  end.

Definition onChat : Func := Extern 1 "onChat".

(** [emit("chat:message", {text: "hi"})] *)
Definition chat_emit : Obj :=
  actionCreator.emit "chat:message" (VObj [ ("text", VStr "hi") ]).

(** [subscribe("chat:message")] *)
Definition chat_subscribe : Obj :=
  actionCreator.subscribe "chat:message" VUndefined.

(** [subscribe("chat:message", onChat)] *)
Definition chat_subscribe_onChat : Obj :=
  actionCreator.subscribe "chat:message" (VFun onChat).

(** [subscribe("chat:message", 42)] *)
Definition chat_subscribe_42 : Obj :=
  actionCreator.subscribe "chat:message" (VNum 42).

(** [unsubscribe("chat:message", 42)] *)
Definition chat_unsubscribe_42 : Obj :=
  actionCreator.unsubscribe "chat:message" (VNum 42).

(** [unsubscribe("chat:message", onChat)] *)
Definition chat_unsubscribe_onChat : Obj :=
  actionCreator.unsubscribe "chat:message" (VFun onChat).

(** An action of the application that is none of the middleware's. *)
Definition increment : Obj := [ ("type", VStr "INCREMENT") ].

(** The EMIT intent above with a property the middleware does not know. *)
Definition chat_emit_with_meta : Obj :=
  ("meta", VStr "from the chat window") :: chat_emit.

(** [{type: 'SOCKET_IO_EMIT'}]: an EMIT intent and nothing else. *)
Definition bare_emit : Obj := [ ("type", VStr ACTIONS.EMIT) ].

(** The notification an EMIT of ["chat:message"] dispatches. *)
Definition chat_emit_notification : Obj :=
  [ ("type", VStr "EMIT: chat:message");
    ("action", VStr "SOCKET.IO EMIT");
    ("data", VObj [ ("text", VStr "hi") ]) ].

(** Two subscriptions without a handler and one with [onChat]. *)
Definition three_subscriptions : list Action :=
  [ ActObject chat_subscribe;
    ActObject chat_subscribe_onChat;
    ActObject chat_subscribe ].

(** The world after [onChat] subscribed to ["chat:message"]. *)
Definition onChat_listening : SampleWorld :=
  snd (socketMiddleware ToString_samples (ActObject chat_subscribe_onChat) initial).

(* ================================================================== *)
(** ** Equality of values *)

Lemma Value_eqb_refl : forall a : Value, Value_eqb a a = true
with Func_eqb_refl : forall f : Func, Func_eqb f f = true.
Proof.
  - intros a. destruct a as [| |b|n|s|f|props]; simpl; try reflexivity.
    + apply Bool.eqb_reflx.
    + apply Z.eqb_refl.
    + apply String.eqb_refl.
    + apply Func_eqb_refl.
    + induction props as [|[k v] ps IH]; [reflexivity|].
      rewrite String.eqb_refl, Value_eqb_refl, IH. reflexivity.
  - intros f. destruct f as [r n|r e]; simpl; rewrite Nat.eqb_refl; simpl.
    + apply String.eqb_refl.
    + apply Value_eqb_refl.
Qed.

Lemma Value_eqb_eq : forall a b : Value, Value_eqb a b = true -> a = b
with Func_eqb_eq : forall f g : Func, Func_eqb f g = true -> f = g.
Proof.
  - intros a. destruct a as [| |x|x|x|f|p]; intros [| |y|y|y|g|q]; simpl;
      try discriminate; try reflexivity; intros E.
    + apply Bool.eqb_prop in E. congruence.
    + apply Z.eqb_eq in E. congruence.
    + apply String.eqb_eq in E. congruence.
    + apply Func_eqb_eq in E. congruence.
    + f_equal. revert q E.
      induction p as [|[k v] p IH]; intros [|[k' v'] q]; try discriminate;
        [reflexivity|].
      intros E. apply andb_prop in E. destruct E as [E Eq].
      apply andb_prop in E. destruct E as [Ek Ev].
      apply String.eqb_eq in Ek. apply Value_eqb_eq in Ev.
      rewrite (IH q Eq). congruence.
  - intros f. destruct f as [r n|r e]; intros [r' n'|r' e']; simpl;
      try discriminate; intros E; apply andb_prop in E; destruct E as [Er E];
      apply Nat.eqb_eq in Er.
    + apply String.eqb_eq in E. congruence.
    + apply Value_eqb_eq in E. congruence.
Qed.

(* ================================================================== *)
(** ** The action creators *)

(** C8.  The three constructors are total functions without effects: for
    every event name and arguments, [emit] returns exactly the record
    [{type: EMIT, event, data}], and [subscribe] and [unsubscribe] return
    exactly [{type: SUBSCRIBE, event, handle}] and
    [{type: UNSUBSCRIBE, event, handle}]; what was put in is read back from
    the fields, and the middleware takes each for an intent. *)
Theorem actionCreator_records (event : string) (data handle : Value) :
  (actionCreator.emit event data
     = [ ("type", VStr "SOCKET_IO_EMIT"); ("event", VStr event); ("data", data) ]
   /\ actionCreator.subscribe event handle
     = [ ("type", VStr "SOCKET_IO_SUBSCRIBE"); ("event", VStr event);
         ("handle", handle) ]
   /\ actionCreator.unsubscribe event handle
     = [ ("type", VStr "SOCKET_IO_UNSUBSCRIBE"); ("event", VStr event);
         ("handle", handle) ])
  /\ (get (actionCreator.emit event data) "event" = VStr event
      /\ get (actionCreator.emit event data) "data" = data
      /\ get (actionCreator.subscribe event handle) "event" = VStr event
      /\ get (actionCreator.subscribe event handle) "handle" = handle
      /\ get (actionCreator.unsubscribe event handle) "event" = VStr event
      /\ get (actionCreator.unsubscribe event handle) "handle" = handle)
  /\ (is_intent (ActObject (actionCreator.emit event data)) = true
      /\ is_intent (ActObject (actionCreator.subscribe event handle)) = true
      /\ is_intent (ActObject (actionCreator.unsubscribe event handle)) = true).
Proof.
  repeat split; reflexivity.
Qed.

(* ================================================================== *)
(** ** The middleware, against any pipeline and any channel *)

Local Open Scope list_scope.

(** Specialise a branch lemma [R] to the fields known in the context. *)
Ltac known_fields R :=
  cbv zeta in R;
  repeat match goal with
         | E : get ?o ?k = _ |- _ => rewrite E in R
         end;
  cbn [template] in R.

Section Contract.

Variable ToString : Value -> string.
Context {P C : Type} `{Pipeline P} `{Channel C}.

Notation World := (@World P C).
Notation run := (socketMiddleware ToString).

Lemma strict_eq_string_true (v : Value) (s : string) :
  strict_eq_string v s = true -> v = VStr s.
Proof.
  destruct v; simpl; try discriminate.
  intros E. apply String.eqb_eq in E. congruence.
Qed.

Lemma is_intent_cases (o : Obj) :
  is_intent (ActObject o) = true ->
  get o "type" = VStr ACTIONS.SUBSCRIBE
  \/ get o "type" = VStr ACTIONS.UNSUBSCRIBE
  \/ get o "type" = VStr ACTIONS.EMIT.
Proof.
  simpl. intros E.
  apply orb_prop in E. destruct E as [E|E].
  - apply orb_prop in E. destruct E as [E|E].
    + left. now apply strict_eq_string_true.
    + right. left. now apply strict_eq_string_true.
  - right. right. now apply strict_eq_string_true.
Qed.

Lemma calls_since_app (w w' : World) (calls : list Call) :
  log w' = log w ++ calls -> calls_since w w' = calls.
Proof.
  intros E. unfold calls_since. rewrite E.
  rewrite skipn_app, skipn_all, Nat.sub_diag. reflexivity.
Qed.

(** What each branch of the switch computes. *)

Lemma run_emit (o : Obj) (w : World) :
  get o "type" = VStr ACTIONS.EMIT ->
  let provenance :=
    [ ("type", VStr ("EMIT: " ++ template ToString (get o "event")));
      ("action", VStr "SOCKET.IO EMIT");
      ("data", get o "data") ] in
  run (ActObject o) w
  = (Normal (fst (channel_emit (get o "event") (get o "data") (chan w))),
     mkWorld (log w ++ [ CallDispatch provenance;
                         CallEmit (get o "event") (get o "data") ])
             (snd (pipeline_dispatch provenance (pipe w)))
             (snd (channel_emit (get o "event") (get o "data") (chan w)))
             (fresh w)).
Proof.
  intros T. unfold socketMiddleware. rewrite T. simpl.
  unfold bind, dispatch, socket_emit. simpl.
  rewrite <- app_assoc. reflexivity.
Qed.

Lemma run_subscribe (o : Obj) (w : World) :
  get o "type" = VStr ACTIONS.SUBSCRIBE ->
  let provenance :=
    [ ("type", VStr ("SUBSCRIBE: " ++ template ToString (get o "event")));
      ("event", get o "event");
      ("handle", match get o "handle" with
                 | VFun f => VStr ("function: " ++ fn_name f)
                 | other => other
                 end) ] in
  let eventHandler :=
    match get o "handle" with
    | VFun f => f
    | _ => Closure (fresh w) (get o "event")
    end in
  run (ActObject o) w
  = (Normal (VFun eventHandler),
     mkWorld (log w ++ [ CallDispatch provenance;
                         CallOn (get o "event") eventHandler ])
             (snd (pipeline_dispatch provenance (pipe w)))
             (channel_on (get o "event") eventHandler (chan w))
             (match get o "handle" with
              | VFun _ => fresh w
              | _ => S (fresh w)
              end)).
Proof.
  intros T. unfold socketMiddleware. rewrite T. simpl.
  unfold bind, dispatch, socket_on, defaultHandle, ret.
  destruct (get o "handle"); simpl; rewrite <- app_assoc; reflexivity.
Qed.

Lemma run_unsubscribe (o : Obj) (w : World) :
  get o "type" = VStr ACTIONS.UNSUBSCRIBE ->
  let provenance :=
    [ ("type", VStr ("UNSUBSCRIBE " ++ template ToString (get o "event")));
      ("event", get o "event") ] in
  run (ActObject o) w
  = match get o "handle" with
    | VFun f =>
        (Normal VUndefined,
         mkWorld (log w ++ [ CallDispatch provenance;
                             CallRemoveListener (get o "event") f ])
                 (snd (pipeline_dispatch provenance (pipe w)))
                 (channel_removeListener (get o "event") f (chan w))
                 (fresh w))
    | _ =>
        (Throw ("Unable to unsubscribe to " ++ template ToString (get o "event")
                ++ ", without a function reference."),
         mkWorld (log w ++ [ CallDispatch provenance ])
                 (snd (pipeline_dispatch provenance (pipe w)))
                 (chan w) (fresh w))
    end.
Proof.
  intros T. unfold socketMiddleware. rewrite T. simpl.
  unfold bind, dispatch, socket_removeListener, throw, ret.
  destruct (get o "handle"); simpl; try reflexivity.
  rewrite <- app_assoc. reflexivity.
Qed.

Lemma run_pass_through (a : Action) (w : World) :
  is_intent a = false ->
  run a w
  = (Normal (fst (pipeline_next a (pipe w))),
     mkWorld (log w ++ [ CallNext a ])
             (snd (pipeline_next a (pipe w))) (chan w) (fresh w)).
Proof.
  destruct a as [f|o]; simpl; intros E; [reflexivity|].
  apply orb_false_elim in E. destruct E as [E E3].
  apply orb_false_elim in E. destruct E as [E1 E2].
  unfold ACTIONS.SUBSCRIBE, ACTIONS.UNSUBSCRIBE, ACTIONS.EMIT in *.
  rewrite E1, E2, E3. reflexivity.
Qed.

(** *** EMIT *)

(** C1.  For every event name and payload, processing an EMIT intent
    dispatches exactly one provenance notification and then makes exactly
    one [socket.emit(event, data)] call, in that order, and returns exactly
    what that call on the channel returned. *)
Theorem emit_provenance_then_send (o : Obj) (event : string) (w : World) :
  get o "type" = VStr ACTIONS.EMIT ->
  get o "event" = VStr event ->
  let data := get o "data" in
  let provenance :=
    [ ("type", VStr ("EMIT: " ++ event));
      ("action", VStr "SOCKET.IO EMIT");
      ("data", data) ] in
  exists w' : World,
    run (ActObject o) w
      = (Normal (fst (channel_emit (VStr event) data (chan w))), w')
    /\ log w' = log w ++ [ CallDispatch provenance; CallEmit (VStr event) data ]
    /\ pipe w' = snd (pipeline_dispatch provenance (pipe w))
    /\ chan w' = snd (channel_emit (VStr event) data (chan w)).
Proof.
  intros T E data provenance.
  pose proof (run_emit o w T) as R. known_fields R.
  eexists. split; [exact R|]. simpl. repeat split.
Qed.

(** *** SUBSCRIBE *)

(** C2.  For every event name and handler, processing a SUBSCRIBE intent
    dispatches its provenance notification, registers exactly one listener
    on the channel for that event and returns a function; the listener and
    the returned reference are one and the same: the supplied handler when
    it is a function, and otherwise a closure newly made by
    [defaultHandle(event)]. *)
Theorem subscribe_registers_one_listener (o : Obj) (event : string) (w : World) :
  get o "type" = VStr ACTIONS.SUBSCRIBE ->
  get o "event" = VStr event ->
  exists (eventHandler : Func) (provenance : Obj) (w' : World),
    run (ActObject o) w = (Normal (VFun eventHandler), w')
    /\ log w' = log w ++ [ CallDispatch provenance;
                           CallOn (VStr event) eventHandler ]
    /\ chan w' = channel_on (VStr event) eventHandler (chan w)
    /\ eventHandler = match get o "handle" with
                      | VFun f => f
                      | _ => Closure (fresh w) (VStr event)
                      end
    /\ fresh w' = (if is_function (get o "handle") then fresh w
                   else S (fresh w)).
Proof.
  intros T E.
  pose proof (run_subscribe o w T) as R. known_fields R.
  do 3 eexists. split; [exact R|]. simpl.
  repeat split. destruct (get o "handle"); reflexivity.
Qed.

(** C9.  Processing a SUBSCRIBE intent returns normally whatever the handle
    is; when the handle is not a function (a number, say), the middleware
    registers and returns the closure of [defaultHandle(event)] without any
    complaint, and the provenance notification carries the handle as it was
    given. *)
Theorem subscribe_never_throws (any o : Obj) (event : string) (w0 w : World) :
  get any "type" = VStr ACTIONS.SUBSCRIBE ->
  get o "type" = VStr ACTIONS.SUBSCRIBE ->
  get o "event" = VStr event ->
  is_function (get o "handle") = false ->
  (exists (h : Func) (w0' : World), run (ActObject any) w0 = (Normal (VFun h), w0'))
  /\ exists w' : World,
       run (ActObject o) w = (Normal (VFun (Closure (fresh w) (VStr event))), w')
       /\ log w' = log w ++
            [ CallDispatch [ ("type", VStr ("SUBSCRIBE: " ++ event));
                             ("event", VStr event);
                             ("handle", get o "handle") ];
              CallOn (VStr event) (Closure (fresh w) (VStr event)) ]
       /\ chan w' = channel_on (VStr event) (Closure (fresh w) (VStr event)) (chan w).
Proof.
  intros Tany T E F. split.
  - rewrite (run_subscribe any w0 Tany). do 2 eexists. reflexivity.
  - pose proof (run_subscribe o w T) as R.
    destruct (get o "handle") eqn:Hh; try discriminate; known_fields R;
      (eexists; split; [exact R|]; simpl; repeat split).
Qed.

(** C4.  Round trip: after a SUBSCRIBE intent without a handler of its own
    has been processed for an event, calling the registered default handler
    with any data, in any later world, dispatches exactly one action, the
    record [{type: "RECEIVE: <event>", data}]: the pipeline receives it and
    moves on as [dispatch] has it, the call returns what that dispatch
    returned, and the channel is left alone. *)
Theorem default_handler_dispatches_receive (o : Obj) (event : string) (w : World) :
  get o "type" = VStr ACTIONS.SUBSCRIBE ->
  get o "event" = VStr event ->
  is_function (get o "handle") = false ->
  exists (h : Func) (w' : World),
    run (ActObject o) w = (Normal (VFun h), w')
    /\ In (CallOn (VStr event) h) (calls_since w w')
    /\ chan w' = channel_on (VStr event) h (chan w)
    /\ forall (data : Value) (w2 : World),
         let received :=
           [ ("type", VStr ("RECEIVE: " ++ event)); ("data", data) ] in
         exists w2' : World,
           invoke ToString h data w2
             = (Normal (fst (pipeline_dispatch received (pipe w2))), w2')
           /\ log w2' = log w2 ++ [ CallDispatch received ]
           /\ dispatched (calls_since w2 w2') = [ received ]
           /\ pipe w2' = snd (pipeline_dispatch received (pipe w2))
           /\ chan w2' = chan w2
           /\ fresh w2' = fresh w2.
Proof.
  intros T E F.
  pose proof (run_subscribe o w T) as R.
  exists (Closure (fresh w) (VStr event)).
  destruct (get o "handle") eqn:Hh; try discriminate; known_fields R;
    (eexists; split; [exact R|]; simpl; split;
     [ erewrite calls_since_app by reflexivity; simpl; auto
     | split; [reflexivity|];
       intros data w2; eexists; split; [reflexivity|]; simpl;
       split; [reflexivity|]; split; [|repeat split];
       erewrite calls_since_app by reflexivity; reflexivity ]).
Qed.

(** *** UNSUBSCRIBE *)

(** C3.  For every event name and every handle that is not a function,
    processing an UNSUBSCRIBE intent throws, at once, after the provenance
    dispatch and before any call on the channel: no listener removal is
    issued and the channel is as it was. *)
Theorem unsubscribe_without_function_throws (o : Obj) (event : string) (w : World) :
  get o "type" = VStr ACTIONS.UNSUBSCRIBE ->
  get o "event" = VStr event ->
  is_function (get o "handle") = false ->
  exists w' : World,
    run (ActObject o) w
      = (Throw ("Unable to unsubscribe to " ++ event
                ++ ", without a function reference."), w')
    /\ log w' = log w ++
         [ CallDispatch [ ("type", VStr ("UNSUBSCRIBE " ++ event));
                          ("event", VStr event) ] ]
    /\ filter is_channel_call (calls_since w w') = []
    /\ chan w' = chan w
    /\ forall e : Value,
         channel_listeners e (chan w') = channel_listeners e (chan w).
Proof.
  intros T E F.
  pose proof (run_unsubscribe o w T) as R.
  destruct (get o "handle") eqn:Hh; try discriminate; known_fields R;
    (eexists; split; [exact R|]; simpl; split; [reflexivity|];
     split; [erewrite calls_since_app by reflexivity; reflexivity|];
     split; reflexivity).
Qed.

(** *** Provenance *)

(** C7.  The provenance notifications have exactly the documented shapes.
    A SUBSCRIBE intent dispatches the one record
    [{type: "SUBSCRIBE: <event>", event, handle}], where [handle] is the tag
    ["function: <name>"] when the handle is a function and the handle as
    given otherwise; an UNSUBSCRIBE intent dispatches the one record
    [{type: "UNSUBSCRIBE <event>", event}], no colon after UNSUBSCRIBE. *)
Theorem provenance_shapes (s u : Obj) (event_s event_u : string) (ws wu : World) :
  get s "type" = VStr ACTIONS.SUBSCRIBE ->
  get s "event" = VStr event_s ->
  get u "type" = VStr ACTIONS.UNSUBSCRIBE ->
  get u "event" = VStr event_u ->
  dispatched (calls_since ws (snd (run (ActObject s) ws)))
    = [ [ ("type", VStr ("SUBSCRIBE: " ++ event_s));
          ("event", VStr event_s);
          ("handle", match get s "handle" with
                     | VFun f => VStr ("function: " ++ fn_name f)
                     | other => other
                     end) ] ]
  /\ dispatched (calls_since wu (snd (run (ActObject u) wu)))
    = [ [ ("type", VStr ("UNSUBSCRIBE " ++ event_u));
          ("event", VStr event_u) ] ].
Proof.
  intros Ts Es Tu Eu. split.
  - rewrite (run_subscribe s ws Ts), Es. simpl.
    erewrite calls_since_app by reflexivity. reflexivity.
  - rewrite (run_unsubscribe u wu Tu), Eu. simpl.
    destruct (get u "handle"); simpl;
      erewrite calls_since_app by reflexivity; reflexivity.
Qed.

(** *** Pass-through and interception *)

(** C5.  A dispatched value that is a function, or an object whose [type]
    is none of the three intent kinds, is handed to [next] as it is, and
    what [next] returns is returned; there is no call on the channel and no
    dispatch. *)
Theorem non_intent_passes_through (a : Action) (w : World) :
  is_intent a = false ->
  exists w' : World,
    run a w = (Normal (fst (pipeline_next a (pipe w))), w')
    /\ log w' = log w ++ [ CallNext a ]
    /\ pipe w' = snd (pipeline_next a (pipe w))
    /\ chan w' = chan w
    /\ fresh w' = fresh w
    /\ filter is_channel_call (calls_since w w') = []
    /\ dispatched (calls_since w w') = [].
Proof.
  intros E. rewrite (run_pass_through a w E).
  eexists. split; [reflexivity|]. simpl.
  erewrite calls_since_app by reflexivity. repeat split.
Qed.

(** C10.  An action whose [type] is one of the three intent kinds never
    reaches [next]: among the calls the middleware makes for it there is no
    call of [next], and the pipeline has seen one dispatch, the provenance
    notification, and nothing else. *)
Theorem intent_never_reaches_next (a : Action) (w : World) :
  is_intent a = true ->
  let w' := snd (run a w) in
  log w' = log w ++ calls_since w w'
  /\ filter is_next_call (calls_since w w') = []
  /\ (forall a' : Action, ~ In (CallNext a') (calls_since w w'))
  /\ exists provenance : Obj,
       pipe w' = snd (pipeline_dispatch provenance (pipe w)).
Proof.
  destruct a as [f|o]; [discriminate|].
  intros I. destruct (is_intent_cases o I) as [T|[T|T]]; cbv zeta.
  - rewrite (run_subscribe o w T). simpl.
    erewrite calls_since_app by reflexivity.
    repeat split; [intros a' [D|[D|[]]]; discriminate | eexists; reflexivity].
  - rewrite (run_unsubscribe o w T).
    destruct (get o "handle"); simpl;
      erewrite calls_since_app by reflexivity;
      (repeat split;
       [ intros a' D; simpl in D; intuition discriminate
       | eexists; reflexivity ]).
  - rewrite (run_emit o w T). simpl.
    erewrite calls_since_app by reflexivity.
    repeat split; [intros a' [D|[D|[]]]; discriminate | eexists; reflexivity].
Qed.

End Contract.

(* ================================================================== *)
(** ** The middleware against the registry channel *)

Section RegistryChannel.

Variable ToString : Value -> string.
Context {P : Type} `{Pipeline P}.

Notation World := (@World P Registry.t).
Notation run := (socketMiddleware ToString).

(** A delivery adds to the log one [CallListener] per listener, each
    followed by the dispatch of the default handler when the listener is
    one. *)
Lemma call_listeners_log (fs : list Func) (data : Value) :
  forall w : World,
    log (snd (call_listeners ToString fs data w))
    = log w ++ listener_calls ToString fs data.
Proof.
  induction fs as [|f fs IH]; intros w; simpl.
  - now rewrite app_nil_r.
  - unfold bind, call_listener.
    destruct f as [r n|r e]; simpl; rewrite IH; simpl;
      repeat rewrite <- app_assoc; reflexivity.
Qed.

Lemma listener_calls_reach (fs : list Func) (data d : Value) (f : Func) :
  In (CallListener f d) (listener_calls ToString fs data) -> In f fs.
Proof.
  induction fs as [|g fs IH]; simpl; [tauto|].
  intros [E|I].
  - left. congruence.
  - right. apply IH. destruct g; simpl in I; [exact I|].
    destruct I as [D|I]; [discriminate|exact I].
Qed.

Lemma deliver_reaches_listeners (event data d : Value) (f : Func) (w : World) :
  In (CallListener f d) (calls_since w (snd (deliver ToString event data w))) ->
  In f (Registry.listeners_for event (chan w)).
Proof.
  unfold deliver. erewrite calls_since_app by apply call_listeners_log.
  apply listener_calls_reach.
Qed.

(** Removal takes the handler out of the listeners of its event, keeps the
    others of that event in their order, and leaves every other event
    alone. *)
Lemma listeners_for_removeListener (event : Value) (h : Func) (r : Registry.t) :
  Registry.listeners_for event (Registry.removeListener event h r)
  = filter (fun f => negb (Func_eqb f h)) (Registry.listeners_for event r).
Proof.
  unfold Registry.listeners_for, Registry.removeListener. simpl.
  induction (Registry.listeners r) as [|[e f] l IH]; [reflexivity|].
  unfold Registry.same_entry at 1. simpl.
  destruct (Value_eqb e event) eqn:Ee; simpl.
  - destruct (Func_eqb f h) eqn:Ef; simpl.
    + exact IH.
    + rewrite Ee. simpl. f_equal. exact IH.
  - rewrite Ee. exact IH.
Qed.

Lemma listeners_for_removeListener_other (event e : Value) (h : Func) (r : Registry.t) :
  e <> event ->
  Registry.listeners_for e (Registry.removeListener event h r)
  = Registry.listeners_for e r.
Proof.
  intros N. unfold Registry.listeners_for, Registry.removeListener. simpl.
  induction (Registry.listeners r) as [|[e0 f] l IH]; [reflexivity|].
  unfold Registry.same_entry at 1. simpl.
  destruct (Value_eqb e0 event) eqn:Ee; simpl.
  - apply Value_eqb_eq in Ee. subst e0.
    destruct (Value_eqb event e) eqn:E'.
    + apply Value_eqb_eq in E'. congruence.
    + destruct (Func_eqb f h); simpl; [|rewrite E']; exact IH.
  - destruct (Value_eqb e0 e) eqn:E'; simpl; [f_equal|]; exact IH.
Qed.

Lemma removed_not_listening (event : Value) (h : Func) (r : Registry.t) :
  ~ In h (Registry.listeners_for event (Registry.removeListener event h r)).
Proof.
  rewrite listeners_for_removeListener. intros I.
  apply filter_In in I. destruct I as [_ N].
  rewrite Func_eqb_refl in N. discriminate.
Qed.

(** C6.  For every event name and function handle, processing an
    UNSUBSCRIBE intent issues, after the provenance dispatch, the one call
    [socket.removeListener(event, handle)] and returns [undefined]; [next]
    is not called.  On the registry channel that call removes exactly that
    callback from the listeners of the event (the others stay, in their
    order, and other events are untouched), so that a later delivery of the
    event does not reach it. *)
Theorem unsubscribe_removes_listener (o : Obj) (event : string) (h : Func) (w : World) :
  get o "type" = VStr ACTIONS.UNSUBSCRIBE ->
  get o "event" = VStr event ->
  get o "handle" = VFun h ->
  exists w' : World,
    run (ActObject o) w = (Normal VUndefined, w')
    /\ log w' = log w ++
         [ CallDispatch [ ("type", VStr ("UNSUBSCRIBE " ++ event));
                          ("event", VStr event) ];
           CallRemoveListener (VStr event) h ]
    /\ chan w' = Registry.removeListener (VStr event) h (chan w)
    /\ channel_listeners (VStr event) (chan w')
       = filter (fun f => negb (Func_eqb f h))
                (channel_listeners (VStr event) (chan w))
    /\ (forall e : Value, e <> VStr event ->
          channel_listeners e (chan w') = channel_listeners e (chan w))
    /\ ~ In h (channel_listeners (VStr event) (chan w'))
    /\ forall data d : Value,
         ~ In (CallListener h d)
              (calls_since w' (snd (deliver ToString (VStr event) data w'))).
Proof.
  intros T E Hh.
  pose proof (run_unsubscribe ToString o w T) as R. known_fields R.
  eexists. split; [exact R|]. simpl.
  split; [reflexivity|]. split; [reflexivity|].
  split; [apply listeners_for_removeListener|].
  split; [intros e N; now apply listeners_for_removeListener_other|].
  split; [apply removed_not_listening|].
  intros data d I. apply deliver_reaches_listeners in I.
  simpl in I. now apply removed_not_listening in I.
Qed.

End RegistryChannel.

(* ================================================================== *)
(** ** The scenarios, run *)

Example emit_chat_message :
  socketMiddleware ToString_samples (ActObject chat_emit) initial
  = (Normal VUndefined,
     mkWorld
       [ CallDispatch [ ("type", VStr "EMIT: chat:message");
                        ("action", VStr "SOCKET.IO EMIT");
                        ("data", VObj [ ("text", VStr "hi") ]) ];
         CallEmit (VStr "chat:message") (VObj [ ("text", VStr "hi") ]) ]
       [ ActObject [ ("type", VStr "EMIT: chat:message");
                     ("action", VStr "SOCKET.IO EMIT");
                     ("data", VObj [ ("text", VStr "hi") ]) ] ]
       (Registry.mk [] [ (VStr "chat:message", VObj [ ("text", VStr "hi") ]) ])
       0).
Proof. reflexivity. Qed.

Example subscribe_chat_message_then_receive :
  fst (socketMiddleware ToString_samples (ActObject chat_subscribe) initial)
  = Normal (VFun (Closure 0 (VStr "chat:message")))
  /\ log (snd (deliver ToString_samples (VStr "chat:message")
                 (VObj [ ("text", VStr "hi") ])
                 (snd (socketMiddleware ToString_samples
                         (ActObject chat_subscribe) initial))))
     = [ CallDispatch [ ("type", VStr "SUBSCRIBE: chat:message");
                        ("event", VStr "chat:message");
                        ("handle", VUndefined) ];
         CallOn (VStr "chat:message") (Closure 0 (VStr "chat:message"));
         CallListener (Closure 0 (VStr "chat:message"))
                      (VObj [ ("text", VStr "hi") ]);
         CallDispatch [ ("type", VStr "RECEIVE: chat:message");
                        ("data", VObj [ ("text", VStr "hi") ]) ] ].
Proof. split; reflexivity. Qed.

Example unsubscribe_chat_message_42 :
  socketMiddleware ToString_samples (ActObject chat_unsubscribe_42) onChat_listening
  = (Throw "Unable to unsubscribe to chat:message, without a function reference.",
     mkWorld
       (log onChat_listening ++
        [ CallDispatch [ ("type", VStr "UNSUBSCRIBE chat:message");
                         ("event", VStr "chat:message") ] ])
       (pipe onChat_listening ++
        [ ActObject [ ("type", VStr "UNSUBSCRIBE chat:message");
                      ("event", VStr "chat:message") ] ])
       (Registry.mk [ (VStr "chat:message", onChat) ] [])
       0).
Proof. reflexivity. Qed.

Example unsubscribe_chat_message_onChat :
  fst (socketMiddleware ToString_samples (ActObject chat_unsubscribe_onChat)
         onChat_listening)
  = Normal VUndefined
  /\ chan (snd (socketMiddleware ToString_samples
                  (ActObject chat_unsubscribe_onChat) onChat_listening))
     = Registry.empty.
Proof. split; reflexivity. Qed.

(* ================================================================== *)
(** ** The theorems at the sample inputs *)

Lemma emit_provenance_then_send_witness :
  (get chat_emit "type" = VStr ACTIONS.EMIT
   /\ get chat_emit "event" = VStr "chat:message")
  /\ exists w' : SampleWorld,
       socketMiddleware ToString_samples (ActObject chat_emit) initial
         = (Normal (fst (channel_emit (VStr "chat:message")
                           (get chat_emit "data") (chan initial))), w')
       /\ log w' = log initial ++
            [ CallDispatch [ ("type", VStr "EMIT: chat:message");
                             ("action", VStr "SOCKET.IO EMIT");
                             ("data", get chat_emit "data") ];
              CallEmit (VStr "chat:message") (get chat_emit "data") ]
       /\ pipe w' = snd (pipeline_dispatch
                           [ ("type", VStr "EMIT: chat:message");
                             ("action", VStr "SOCKET.IO EMIT");
                             ("data", get chat_emit "data") ] (pipe initial))
       /\ chan w' = snd (channel_emit (VStr "chat:message")
                           (get chat_emit "data") (chan initial)).
Proof.
  split; [split; reflexivity|].
  apply (emit_provenance_then_send ToString_samples chat_emit "chat:message" initial);
    reflexivity.
Defined.

Lemma subscribe_registers_one_listener_witness :
  (get chat_subscribe_onChat "type" = VStr ACTIONS.SUBSCRIBE
   /\ get chat_subscribe_onChat "event" = VStr "chat:message")
  /\ exists (eventHandler : Func) (provenance : Obj) (w' : SampleWorld),
       socketMiddleware ToString_samples (ActObject chat_subscribe_onChat) initial
         = (Normal (VFun eventHandler), w')
       /\ log w' = log initial ++ [ CallDispatch provenance;
                                    CallOn (VStr "chat:message") eventHandler ]
       /\ chan w' = channel_on (VStr "chat:message") eventHandler (chan initial)
       /\ eventHandler = match get chat_subscribe_onChat "handle" with
                         | VFun f => f
                         | _ => Closure (fresh initial) (VStr "chat:message")
                         end
       /\ fresh w' = (if is_function (get chat_subscribe_onChat "handle")
                      then fresh initial else S (fresh initial)).
Proof.
  split; [split; reflexivity|].
  apply (subscribe_registers_one_listener ToString_samples
           chat_subscribe_onChat "chat:message" initial); reflexivity.
Defined.

Lemma subscribe_never_throws_witness :
  (get chat_subscribe_onChat "type" = VStr ACTIONS.SUBSCRIBE
   /\ get chat_subscribe_42 "type" = VStr ACTIONS.SUBSCRIBE
   /\ get chat_subscribe_42 "event" = VStr "chat:message"
   /\ is_function (get chat_subscribe_42 "handle") = false)
  /\ (exists (h : Func) (w0' : SampleWorld),
        socketMiddleware ToString_samples (ActObject chat_subscribe_onChat)
          onChat_listening = (Normal (VFun h), w0'))
  /\ exists w' : SampleWorld,
       socketMiddleware ToString_samples (ActObject chat_subscribe_42) initial
         = (Normal (VFun (Closure (fresh initial) (VStr "chat:message"))), w')
       /\ log w' = log initial ++
            [ CallDispatch [ ("type", VStr "SUBSCRIBE: chat:message");
                             ("event", VStr "chat:message");
                             ("handle", get chat_subscribe_42 "handle") ];
              CallOn (VStr "chat:message")
                     (Closure (fresh initial) (VStr "chat:message")) ]
       /\ chan w' = channel_on (VStr "chat:message")
                      (Closure (fresh initial) (VStr "chat:message"))
                      (chan initial).
Proof.
  split; [repeat split; reflexivity|].
  apply (subscribe_never_throws ToString_samples chat_subscribe_onChat
           chat_subscribe_42 "chat:message" onChat_listening initial);
    reflexivity.
Defined.

Lemma default_handler_dispatches_receive_witness :
  (get chat_subscribe "type" = VStr ACTIONS.SUBSCRIBE
   /\ get chat_subscribe "event" = VStr "chat:message"
   /\ is_function (get chat_subscribe "handle") = false)
  /\ exists (h : Func) (w' : SampleWorld),
       socketMiddleware ToString_samples (ActObject chat_subscribe) initial
         = (Normal (VFun h), w')
       /\ In (CallOn (VStr "chat:message") h) (calls_since initial w')
       /\ chan w' = channel_on (VStr "chat:message") h (chan initial)
       /\ forall (data : Value) (w2 : SampleWorld),
            exists w2' : SampleWorld,
              invoke ToString_samples h data w2
                = (Normal (fst (pipeline_dispatch
                                  [ ("type", VStr "RECEIVE: chat:message");
                                    ("data", data) ] (pipe w2))), w2')
              /\ log w2' = log w2 ++
                   [ CallDispatch [ ("type", VStr "RECEIVE: chat:message");
                                    ("data", data) ] ]
              /\ dispatched (calls_since w2 w2')
                 = [ [ ("type", VStr "RECEIVE: chat:message"); ("data", data) ] ]
              /\ pipe w2' = snd (pipeline_dispatch
                                   [ ("type", VStr "RECEIVE: chat:message");
                                     ("data", data) ] (pipe w2))
              /\ chan w2' = chan w2
              /\ fresh w2' = fresh w2.
Proof.
  split; [repeat split; reflexivity|].
  apply (default_handler_dispatches_receive ToString_samples
           chat_subscribe "chat:message" initial); reflexivity.
Defined.

Lemma unsubscribe_without_function_throws_witness :
  (get chat_unsubscribe_42 "type" = VStr ACTIONS.UNSUBSCRIBE
   /\ get chat_unsubscribe_42 "event" = VStr "chat:message"
   /\ is_function (get chat_unsubscribe_42 "handle") = false)
  /\ exists w' : SampleWorld,
       socketMiddleware ToString_samples (ActObject chat_unsubscribe_42)
         onChat_listening
         = (Throw "Unable to unsubscribe to chat:message, without a function reference.",
            w')
       /\ log w' = log onChat_listening ++
            [ CallDispatch [ ("type", VStr "UNSUBSCRIBE chat:message");
                             ("event", VStr "chat:message") ] ]
       /\ filter is_channel_call (calls_since onChat_listening w') = []
       /\ chan w' = chan onChat_listening
       /\ forall e : Value,
            channel_listeners e (chan w')
            = channel_listeners e (chan onChat_listening).
Proof.
  split; [repeat split; reflexivity|].
  apply (unsubscribe_without_function_throws ToString_samples
           chat_unsubscribe_42 "chat:message" onChat_listening); reflexivity.
Defined.

Lemma unsubscribe_removes_listener_witness :
  (get chat_unsubscribe_onChat "type" = VStr ACTIONS.UNSUBSCRIBE
   /\ get chat_unsubscribe_onChat "event" = VStr "chat:message"
   /\ get chat_unsubscribe_onChat "handle" = VFun onChat)
  /\ exists w' : SampleWorld,
       socketMiddleware ToString_samples (ActObject chat_unsubscribe_onChat)
         onChat_listening = (Normal VUndefined, w')
       /\ log w' = log onChat_listening ++
            [ CallDispatch [ ("type", VStr "UNSUBSCRIBE chat:message");
                             ("event", VStr "chat:message") ];
              CallRemoveListener (VStr "chat:message") onChat ]
       /\ chan w' = Registry.removeListener (VStr "chat:message") onChat
                      (chan onChat_listening)
       /\ channel_listeners (VStr "chat:message") (chan w')
          = filter (fun f => negb (Func_eqb f onChat))
                   (channel_listeners (VStr "chat:message") (chan onChat_listening))
       /\ (forall e : Value, e <> VStr "chat:message" ->
             channel_listeners e (chan w')
             = channel_listeners e (chan onChat_listening))
       /\ ~ In onChat (channel_listeners (VStr "chat:message") (chan w'))
       /\ forall data d : Value,
            ~ In (CallListener onChat d)
                 (calls_since w'
                    (snd (deliver ToString_samples (VStr "chat:message") data w'))).
Proof.
  split; [repeat split; reflexivity|].
  apply (unsubscribe_removes_listener ToString_samples
           chat_unsubscribe_onChat "chat:message" onChat onChat_listening);
    reflexivity.
Defined.

Lemma provenance_shapes_witness :
  (get chat_subscribe_onChat "type" = VStr ACTIONS.SUBSCRIBE
   /\ get chat_subscribe_onChat "event" = VStr "chat:message"
   /\ get chat_unsubscribe_onChat "type" = VStr ACTIONS.UNSUBSCRIBE
   /\ get chat_unsubscribe_onChat "event" = VStr "chat:message")
  /\ dispatched
       (calls_since initial
          (snd (socketMiddleware ToString_samples
                  (ActObject chat_subscribe_onChat) initial)))
     = [ [ ("type", VStr "SUBSCRIBE: chat:message");
           ("event", VStr "chat:message");
           ("handle", match get chat_subscribe_onChat "handle" with
                      | VFun f => VStr ("function: " ++ fn_name f)
                      | other => other
                      end) ] ]
  /\ dispatched
       (calls_since onChat_listening
          (snd (socketMiddleware ToString_samples
                  (ActObject chat_unsubscribe_onChat) onChat_listening)))
     = [ [ ("type", VStr "UNSUBSCRIBE chat:message");
           ("event", VStr "chat:message") ] ].
Proof.
  split; [repeat split; reflexivity|].
  apply (provenance_shapes ToString_samples
           chat_subscribe_onChat chat_unsubscribe_onChat
           "chat:message" "chat:message" initial onChat_listening);
    reflexivity.
Defined.

Lemma non_intent_passes_through_witness :
  is_intent (ActObject increment) = false
  /\ exists w' : SampleWorld,
       socketMiddleware ToString_samples (ActObject increment) onChat_listening
         = (Normal (fst (pipeline_next (ActObject increment)
                           (pipe onChat_listening))), w')
       /\ log w' = log onChat_listening ++ [ CallNext (ActObject increment) ]
       /\ pipe w' = snd (pipeline_next (ActObject increment)
                           (pipe onChat_listening))
       /\ chan w' = chan onChat_listening
       /\ fresh w' = fresh onChat_listening
       /\ filter is_channel_call (calls_since onChat_listening w') = []
       /\ dispatched (calls_since onChat_listening w') = [].
Proof.
  split; [reflexivity|].
  apply (non_intent_passes_through ToString_samples (ActObject increment)
           onChat_listening); reflexivity.
Defined.

Lemma intent_never_reaches_next_witness :
  is_intent (ActObject chat_emit) = true
  /\ log (snd (socketMiddleware ToString_samples (ActObject chat_emit) initial))
     = log initial ++
       calls_since initial
         (snd (socketMiddleware ToString_samples (ActObject chat_emit) initial))
  /\ filter is_next_call
       (calls_since initial
          (snd (socketMiddleware ToString_samples (ActObject chat_emit) initial)))
     = []
  /\ (forall a' : Action,
        ~ In (CallNext a')
             (calls_since initial
                (snd (socketMiddleware ToString_samples
                        (ActObject chat_emit) initial))))
  /\ exists provenance : Obj,
       pipe (snd (socketMiddleware ToString_samples (ActObject chat_emit) initial))
       = snd (pipeline_dispatch provenance (pipe initial)).
Proof.
  split; [reflexivity|].
  apply (intent_never_reaches_next ToString_samples (ActObject chat_emit) initial);
    reflexivity.
Defined.

(* ================================================================== *)
(** ** Further properties of the middleware *)

Section Further.

Variable ToString : Value -> string.
Context {P C : Type} `{Pipeline P} `{Channel C}.

Notation World := (@World P C).
Notation run := (socketMiddleware ToString).

(** The calls of a run, branch by branch. *)
Lemma calls_of_run (a : Action) (w : World) :
  calls_since w (snd (run a w))
  = match a with
    | ActFunction _ => [ CallNext a ]
    | ActObject o =>
        if strict_eq_string (get o "type") ACTIONS.SUBSCRIBE then
          [ CallDispatch
              [ ("type", VStr ("SUBSCRIBE: " ++ template ToString (get o "event")));
                ("event", get o "event");
                ("handle", match get o "handle" with
                           | VFun f => VStr ("function: " ++ fn_name f)
                           | other => other
                           end) ];
            CallOn (get o "event")
                   match get o "handle" with
                   | VFun f => f
                   | _ => Closure (fresh w) (get o "event")
                   end ]
        else if strict_eq_string (get o "type") ACTIONS.UNSUBSCRIBE then
          CallDispatch
            [ ("type", VStr ("UNSUBSCRIBE " ++ template ToString (get o "event")));
              ("event", get o "event") ]
          :: match get o "handle" with
             | VFun f => [ CallRemoveListener (get o "event") f ]
             | _ => []
             end
        else if strict_eq_string (get o "type") ACTIONS.EMIT then
          [ CallDispatch
              [ ("type", VStr ("EMIT: " ++ template ToString (get o "event")));
                ("action", VStr "SOCKET.IO EMIT");
                ("data", get o "data") ];
            CallEmit (get o "event") (get o "data") ]
        else [ CallNext a ]
    end.
Proof.
  destruct (is_intent a) eqn:I.
  - destruct a as [f|o]; [discriminate|].
    destruct (is_intent_cases o I) as [T|[T|T]].
    + rewrite (run_subscribe ToString o w T), T. simpl.
      now erewrite calls_since_app by reflexivity.
    + rewrite (run_unsubscribe ToString o w T), T. simpl.
      destruct (get o "handle"); simpl;
        now erewrite calls_since_app by reflexivity.
    + rewrite (run_emit ToString o w T), T. simpl.
      now erewrite calls_since_app by reflexivity.
  - rewrite (run_pass_through ToString a w I). simpl.
    erewrite calls_since_app by reflexivity.
    destruct a as [f|o]; [reflexivity|].
    simpl in I. apply orb_false_elim in I. destruct I as [I I3].
    apply orb_false_elim in I. destruct I as [I1 I2].
    now rewrite I1, I2, I3.
Qed.

Lemma completion_of_run (a : Action) (w : World) :
  is_throw (fst (run a w))
  = match a with
    | ActFunction _ => false
    | ActObject o =>
        strict_eq_string (get o "type") ACTIONS.UNSUBSCRIBE
        && negb (is_function (get o "handle"))
    end.
Proof.
  destruct (is_intent a) eqn:I.
  - destruct a as [f|o]; [discriminate|].
    destruct (is_intent_cases o I) as [T|[T|T]].
    + rewrite (run_subscribe ToString o w T), T. reflexivity.
    + rewrite (run_unsubscribe ToString o w T), T.
      destruct (get o "handle"); reflexivity.
    + rewrite (run_emit ToString o w T), T. reflexivity.
  - rewrite (run_pass_through ToString a w I).
    destruct a as [f|o]; [reflexivity|].
    simpl in I. apply orb_false_elim in I. destruct I as [I I3].
    apply orb_false_elim in I. destruct I as [I1 I2].
    simpl. now rewrite I2.
Qed.

Lemma log_of_run (a : Action) (w : World) :
  log (snd (run a w)) = log w ++ calls_since w (snd (run a w)).
Proof.
  destruct (is_intent a) eqn:I.
  - destruct a as [f|o]; [discriminate|].
    destruct (is_intent_cases o I) as [T|[T|T]].
    + rewrite (run_subscribe ToString o w T). simpl.
      now erewrite calls_since_app by reflexivity.
    + rewrite (run_unsubscribe ToString o w T).
      destruct (get o "handle"); simpl;
        now erewrite calls_since_app by reflexivity.
    + rewrite (run_emit ToString o w T). simpl.
      now erewrite calls_since_app by reflexivity.
  - rewrite (run_pass_through ToString a w I). simpl.
    now erewrite calls_since_app by reflexivity.
Qed.

Lemma is_throw_true {A : Type} (c : Completion A) :
  is_throw c = true <-> exists message, c = Throw message.
Proof.
  destruct c as [v|m]; simpl; split.
  - discriminate.
  - intros [m E]. discriminate.
  - intros _. now exists m.
  - reflexivity.
Qed.

Lemma get_missing (o : Obj) (key : string) :
  has_key o key = false -> get o key = VUndefined.
Proof.
  induction o as [|[k v] o IH]; simpl; [reflexivity|].
  destruct (String.eqb k key); simpl; [discriminate|exact IH].
Qed.

(** X1.  Nothing the middleware dispatches is an intent of its own: the
    [type] of every action dispatched while an action is processed, or by a
    default handler, is none of the five [ACTIONS] constants, whatever the
    event.  When the store's dispatch brings such an action back to the
    middleware, all it does is hand it to [next]. *)
Theorem dispatched_actions_pass_through (a : Action) (h : Func) (data : Value)
    (w wh : World) (o : Obj) :
  In o (dispatched (calls_since w (snd (run a w))))
  \/ In o (dispatched (calls_since wh (snd (invoke ToString h data wh)))) ->
  is_intent (ActObject o) = false
  /\ strict_eq_string (get o "type") ACTIONS.EMIT_EVENT = false
  /\ strict_eq_string (get o "type") ACTIONS.EVENT_RECEIVED = false
  /\ forall w2 : World,
       run (ActObject o) w2
       = (Normal (fst (pipeline_next (ActObject o) (pipe w2))),
          mkWorld (log w2 ++ [ CallNext (ActObject o) ])
                  (snd (pipeline_next (ActObject o) (pipe w2)))
                  (chan w2) (fresh w2)).
Proof.
  intros D.
  assert (N : is_intent (ActObject o) = false
              /\ strict_eq_string (get o "type") ACTIONS.EMIT_EVENT = false
              /\ strict_eq_string (get o "type") ACTIONS.EVENT_RECEIVED = false).
  { destruct D as [D|D].
    - rewrite calls_of_run in D. destruct a as [f|o0]; [destruct D|].
      destruct (strict_eq_string (get o0 "type") ACTIONS.SUBSCRIBE).
      { destruct D as [D|[]]. subst o. repeat split. }
      destruct (strict_eq_string (get o0 "type") ACTIONS.UNSUBSCRIBE).
      { destruct (get o0 "handle"); destruct D as [D|[]]; subst o;
          repeat split. }
      destruct (strict_eq_string (get o0 "type") ACTIONS.EMIT).
      { destruct D as [D|[]]. subst o. repeat split. }
      destruct D.
    - destruct h as [r n|r e]; simpl in D.
      + erewrite calls_since_app in D
          by (simpl; symmetry; apply app_nil_r).
        destruct D.
      + erewrite calls_since_app in D by reflexivity.
        destruct D as [D|[]]. subst o. repeat split. }
  destruct N as [N1 [N2 N3]]. repeat split; try assumption.
  intros w2. now apply run_pass_through.
Qed.

(** X2.  The one error of the middleware: for an action whose template
    literals cannot fail (a function, an object that is no intent, or an
    intent whose event is a primitive value), a run throws if and only if
    the action is an object whose [type] is UNSUBSCRIBE and whose [handle]
    is not a function.  Neither a missing event nor the data is checked. *)
Theorem throws_iff_unsubscribe_without_function (a : Action) (w : World) :
  primitive_event a = true ->
  ((exists message : string, fst (run a w) = Throw message)
   <-> exists o : Obj,
         a = ActObject o
         /\ get o "type" = VStr ACTIONS.UNSUBSCRIBE
         /\ is_function (get o "handle") = false).
Proof.
  intros _.
  rewrite <- is_throw_true, completion_of_run. split.
  - destruct a as [f|o]; [discriminate|]. intros E.
    apply andb_prop in E. destruct E as [T F].
    exists o. split; [reflexivity|].
    split; [now apply strict_eq_string_true|].
    now apply negb_true_iff in F.
  - intros [o [-> [T F]]]. rewrite T, F. reflexivity.
Qed.

(** X3.  One operation per action: for an action whose template literals
    cannot fail (a function, an object that is no intent, or an intent
    whose event is a primitive value), the log only grows; an intent gets
    exactly one dispatch and any other action none; a run that returns has
    made exactly one call that is either a call on the channel or [next],
    and a run that throws has made neither.  The middleware itself never
    calls a listener. *)
Theorem one_operation_per_action (a : Action) (w : World) :
  primitive_event a = true ->
  log (snd (run a w)) = log w ++ calls_since w (snd (run a w))
  /\ length (dispatched (calls_since w (snd (run a w))))
     = (if is_intent a then 1 else 0)
  /\ length (filter is_channel_call (calls_since w (snd (run a w))))
     + length (filter is_next_call (calls_since w (snd (run a w))))
     = (if is_throw (fst (run a w)) then 0 else 1)
  /\ forall (f : Func) (d : Value),
       ~ In (CallListener f d) (calls_since w (snd (run a w))).
Proof.
  intros _.
  split; [apply log_of_run|].
  rewrite completion_of_run, calls_of_run.
  destruct a as [f|o]; simpl.
  - repeat split. intros g d [D|[]]. discriminate.
  - destruct (strict_eq_string (get o "type") ACTIONS.SUBSCRIBE) eqn:T1.
    { apply strict_eq_string_true in T1. rewrite T1. simpl.
      repeat split. intros g d [D|[D|[]]]; discriminate. }
    destruct (strict_eq_string (get o "type") ACTIONS.UNSUBSCRIBE) eqn:T2.
    { destruct (get o "handle"); simpl; repeat split;
        intros g d D; simpl in D; intuition discriminate. }
    destruct (strict_eq_string (get o "type") ACTIONS.EMIT) eqn:T3.
    { simpl. repeat split. intros g d [D|[D|[]]]; discriminate. }
    simpl. repeat split. intros g d [D|[]]. discriminate.
Qed.

(** X4.  What SUBSCRIBE returns is what UNSUBSCRIBE needs: an UNSUBSCRIBE
    intent for the same event whose [handle] is the value a SUBSCRIBE run
    returned does not throw, in whatever world it is processed, and its one
    channel call is [socket.removeListener] with exactly the event and the
    function [socket.on] was called with. *)
Theorem returned_reference_unsubscribes (s u : Obj) (event : string) (w w2 : World) :
  get s "type" = VStr ACTIONS.SUBSCRIBE ->
  get s "event" = VStr event ->
  get u "type" = VStr ACTIONS.UNSUBSCRIBE ->
  get u "event" = VStr event ->
  fst (run (ActObject s) w) = Normal (get u "handle") ->
  exists h : Func,
    get u "handle" = VFun h
    /\ registered (calls_since w (snd (run (ActObject s) w))) = [ h ]
    /\ In (CallOn (VStr event) h) (calls_since w (snd (run (ActObject s) w)))
    /\ fst (run (ActObject u) w2) = Normal VUndefined
    /\ filter is_channel_call (calls_since w2 (snd (run (ActObject u) w2)))
       = [ CallRemoveListener (VStr event) h ]
    /\ chan (snd (run (ActObject u) w2))
       = channel_removeListener (VStr event) h (chan w2).
Proof.
  intros Ts Es Tu Eu R.
  rewrite (run_subscribe ToString s w Ts) in R. simpl in R.
  injection R as R.
  rewrite (run_unsubscribe ToString u w2 Tu), Eu, <- R.
  rewrite (run_subscribe ToString s w Ts), Es. simpl.
  erewrite !calls_since_app by reflexivity. simpl.
  eexists. repeat split. auto.
Qed.

(** X5.  An intent is read through four fields only: two objects that
    agree on [type], [event], [handle] and [data] are processed alike, with
    the same result, the same calls and the same world afterwards, whatever
    else they carry. *)
Theorem intent_reads_four_fields (o1 o2 : Obj) (w : World) :
  is_intent (ActObject o1) = true ->
  get o1 "type" = get o2 "type" ->
  get o1 "event" = get o2 "event" ->
  get o1 "handle" = get o2 "handle" ->
  get o1 "data" = get o2 "data" ->
  run (ActObject o1) w = run (ActObject o2) w.
Proof.
  intros I Et Ee Eh Ed.
  destruct (is_intent_cases o1 I) as [T|[T|T]];
    pose proof T as T2; rewrite Et in T2.
  - rewrite (run_subscribe ToString o1 w T), (run_subscribe ToString o2 w T2).
    now rewrite Ee, Eh.
  - rewrite (run_unsubscribe ToString o1 w T), (run_unsubscribe ToString o2 w T2).
    now rewrite Ee, Eh.
  - rewrite (run_emit ToString o1 w T), (run_emit ToString o2 w T2).
    now rewrite Ee, Ed.
Qed.

(** X6.  The middleware keeps no record of its own: the calls it makes for
    an action, and whether it throws, are the same in any two worlds, however
    their logs, pipelines and channels differ, once the next closure
    reference is the same.  It registers a handler that is registered
    already and asks for the removal of one that never was. *)
Theorem calls_independent_of_history (a : Action) (w1 w2 : World) :
  fresh w1 = fresh w2 ->
  calls_since w1 (snd (run a w1)) = calls_since w2 (snd (run a w2))
  /\ is_throw (fst (run a w1)) = is_throw (fst (run a w2)).
Proof.
  intros F. rewrite !calls_of_run, !completion_of_run, F. split; reflexivity.
Qed.

(** X7.  The notifications are unambiguous: when two intents with string
    events lead to dispatches of the same [type], the intents are of the
    same kind and name the same event. *)
Theorem notification_type_determines_intent (o1 o2 : Obj) (e1 e2 : string)
    (w1 w2 : World) :
  is_intent (ActObject o1) = true ->
  is_intent (ActObject o2) = true ->
  get o1 "event" = VStr e1 ->
  get o2 "event" = VStr e2 ->
  dispatched_types (calls_since w1 (snd (run (ActObject o1) w1)))
  = dispatched_types (calls_since w2 (snd (run (ActObject o2) w2))) ->
  get o1 "type" = get o2 "type" /\ e1 = e2.
Proof.
  intros I1 I2 E1 E2. rewrite !calls_of_run, E1, E2.
  destruct (is_intent_cases o1 I1) as [T1|[T1|T1]];
    destruct (is_intent_cases o2 I2) as [T2|[T2|T2]];
    rewrite T1, T2; unfold dispatched_types; simpl;
    destruct (get o1 "handle"); destruct (get o2 "handle"); simpl;
    intros D; try discriminate D;
    (split; [reflexivity|]); injection D as D; exact D.
Qed.

(** X8.  A missing event or payload is not an error: an EMIT intent that
    has neither an [event] nor a [data] property returns normally, after
    [socket.emit(undefined, undefined)] and a notification whose type is
    made from [undefined]. *)
Theorem emit_without_event_or_data (o : Obj) (w : World) :
  get o "type" = VStr ACTIONS.EMIT ->
  has_key o "event" = false ->
  has_key o "data" = false ->
  fst (run (ActObject o) w)
    = Normal (fst (channel_emit VUndefined VUndefined (chan w)))
  /\ calls_since w (snd (run (ActObject o) w))
     = [ CallDispatch [ ("type", VStr ("EMIT: " ++ ToString VUndefined));
                        ("action", VStr "SOCKET.IO EMIT");
                        ("data", VUndefined) ];
         CallEmit VUndefined VUndefined ].
Proof.
  intros T Ke Kd. apply get_missing in Ke, Kd.
  rewrite calls_of_run, (run_emit ToString o w T), T, Ke, Kd.
  split; reflexivity.
Qed.

(** *** Default handlers are new functions *)

Lemma registered_app (l1 l2 : list Call) :
  registered (l1 ++ l2) = registered l1 ++ registered l2.
Proof.
  induction l1 as [|c l1 IH]; [reflexivity|].
  destruct c; simpl; now rewrite IH.
Qed.

Lemma closure_refs_app (l1 l2 : list Func) :
  closure_refs (l1 ++ l2) = closure_refs l1 ++ closure_refs l2.
Proof.
  induction l1 as [|f l1 IH]; [reflexivity|].
  destruct f; simpl; now rewrite IH.
Qed.

Lemma fresh_of_run (a : Action) (w : World) :
  fresh (snd (run a w))
  = match a with
    | ActFunction _ => fresh w
    | ActObject o =>
        if strict_eq_string (get o "type") ACTIONS.SUBSCRIBE
           && negb (is_function (get o "handle"))
        then S (fresh w) else fresh w
    end.
Proof.
  destruct (is_intent a) eqn:I.
  - destruct a as [f|o]; [discriminate|].
    destruct (is_intent_cases o I) as [T|[T|T]].
    + rewrite (run_subscribe ToString o w T), T.
      destruct (get o "handle"); reflexivity.
    + rewrite (run_unsubscribe ToString o w T), T.
      destruct (get o "handle"); reflexivity.
    + rewrite (run_emit ToString o w T), T. reflexivity.
  - rewrite (run_pass_through ToString a w I).
    destruct a as [f|o]; [reflexivity|].
    simpl in I. apply orb_false_elim in I. destruct I as [I I3].
    apply orb_false_elim in I. destruct I as [I1 I2].
    simpl. now rewrite I1.
Qed.

Lemma closures_in_order_run (a : Action) (w : World) :
  carries_closure a = false ->
  closures_in_order w -> closures_in_order (snd (run a w)).
Proof.
  intros K [N B]. unfold closures_in_order.
  rewrite log_of_run, registered_app, closure_refs_app, fresh_of_run,
    calls_of_run.
  destruct a as [f|o]; simpl.
  - rewrite app_nil_r. now split.
  - simpl in K.
    destruct (strict_eq_string (get o "type") ACTIONS.SUBSCRIBE); simpl.
    + destruct (get o "handle") as [| | | | |[r n|r e]|]; try discriminate K;
        simpl; try (rewrite app_nil_r; now split);
        (split;
         [ apply NoDup_app; [exact N | repeat constructor; intros []
                            | intros x Ix [<-|[]];
                              rewrite Forall_forall in B;
                              specialize (B _ Ix); lia ]
         | apply Forall_app; split;
           [ eapply Forall_impl; [|exact B]; simpl; intros; lia
           | repeat constructor ] ]).
    + destruct (strict_eq_string (get o "type") ACTIONS.UNSUBSCRIBE).
      { destruct (get o "handle"); simpl; rewrite app_nil_r; now split. }
      destruct (strict_eq_string (get o "type") ACTIONS.EMIT);
        simpl; rewrite app_nil_r; now split.
Qed.

Lemma closures_in_order_dispatch_all (actions : list Action) :
  forall w : World,
    forallb (fun a => negb (carries_closure a)) actions = true ->
    closures_in_order w ->
    closures_in_order (dispatch_all ToString actions w).
Proof.
  induction actions as [|a actions IH]; intros w K I; [exact I|].
  simpl in K. apply andb_prop in K. destruct K as [Ka K].
  apply negb_true_iff in Ka.
  apply (IH _ K). now apply closures_in_order_run.
Qed.

(** X9.  Every default handler is a new function: when a caller that
    starts with an empty log dispatches any actions one after the other,
    none of which hands a default handler back as its [handle], the
    default handlers registered on the channel are pairwise different, so
    each subscription can be told from the others by its reference. *)
Theorem default_handlers_are_distinct (actions : list Action) (w : World) :
  log w = [] ->
  forallb (fun a => negb (carries_closure a)) actions = true ->
  NoDup (closure_refs (registered (log (dispatch_all ToString actions w)))).
Proof.
  intros L K.
  apply (closures_in_order_dispatch_all actions w K).
  unfold closures_in_order. rewrite L. split; constructor.
Qed.

End Further.

(* ================================================================== *)
(** ** Subscribing and unsubscribing on the registry channel *)

Section FurtherRegistry.

Variable ToString : Value -> string.
Context {P : Type} `{Pipeline P}.

Notation World := (@World P Registry.t).
Notation run := (socketMiddleware ToString).

Lemma filter_nothing {A : Type} (f : A -> bool) (l : list A) :
  existsb f l = false -> filter (fun x => negb (f x)) l = l.
Proof.
  induction l as [|x l IH]; simpl; [reflexivity|].
  intros E. apply orb_false_elim in E. destruct E as [Ex El].
  rewrite Ex. simpl. now rewrite IH.
Qed.

Lemma removeListener_on (event : Value) (h : Func) (r : Registry.t) :
  existsb (Registry.same_entry event h) (Registry.listeners r) = false ->
  Registry.removeListener event h (Registry.on event h r) = r.
Proof.
  intros E. destruct r as [l sent].
  unfold Registry.removeListener, Registry.on. simpl in *.
  rewrite filter_app, (filter_nothing _ _ E). simpl.
  unfold Registry.same_entry. simpl.
  rewrite Value_eqb_refl, Func_eqb_refl. simpl.
  now rewrite app_nil_r.
Qed.

(** Subscribe, then unsubscribe with the reference that came back:
    on the registry channel, when that function was not listening to the
    event before, the channel is afterwards exactly as it was before the
    two intents, and the second run returns [undefined]. *)
Theorem subscribe_then_unsubscribe_restores (s u : Obj) (event : string)
    (h : Func) (w : World) :
  get s "type" = VStr ACTIONS.SUBSCRIBE ->
  get s "event" = VStr event ->
  get u "type" = VStr ACTIONS.UNSUBSCRIBE ->
  get u "event" = VStr event ->
  fst (run (ActObject s) w) = Normal (VFun h) ->
  get u "handle" = VFun h ->
  existsb (Registry.same_entry (VStr event) h) (Registry.listeners (chan w))
    = false ->
  fst (run (ActObject u) (snd (run (ActObject s) w))) = Normal VUndefined
  /\ chan (snd (run (ActObject u) (snd (run (ActObject s) w)))) = chan w.
Proof.
  intros Ts Es Tu Eu R Hu N.
  rewrite (run_unsubscribe ToString u _ Tu), Eu, Hu.
  rewrite (run_subscribe ToString s w Ts), Es in R |- *. simpl in R.
  injection R as R. rewrite R. simpl.
  split; [reflexivity|]. now apply removeListener_on.
Qed.

End FurtherRegistry.

(* ================================================================== *)
(** ** The further properties at the sample inputs *)

Lemma dispatched_actions_pass_through_witness :
  (In chat_emit_notification
      (dispatched (calls_since initial
         (snd (socketMiddleware ToString_samples (ActObject chat_emit) initial))))
   \/ In chat_emit_notification
         (dispatched (calls_since initial
            (snd (invoke ToString_samples onChat VNull initial)))))
  /\ is_intent (ActObject chat_emit_notification) = false
  /\ strict_eq_string (get chat_emit_notification "type") ACTIONS.EMIT_EVENT = false
  /\ strict_eq_string (get chat_emit_notification "type") ACTIONS.EVENT_RECEIVED = false
  /\ forall w2 : SampleWorld,
       socketMiddleware ToString_samples (ActObject chat_emit_notification) w2
       = (Normal (fst (pipeline_next (ActObject chat_emit_notification) (pipe w2))),
          mkWorld (log w2 ++ [ CallNext (ActObject chat_emit_notification) ])
                  (snd (pipeline_next (ActObject chat_emit_notification) (pipe w2)))
                  (chan w2) (fresh w2)).
Proof.
  split; [left; simpl; auto|].
  apply (dispatched_actions_pass_through ToString_samples
           (ActObject chat_emit) onChat VNull initial initial
           chat_emit_notification).
  left. simpl. auto.
Defined.

Lemma returned_reference_unsubscribes_witness :
  (get chat_subscribe_onChat "type" = VStr ACTIONS.SUBSCRIBE
   /\ get chat_subscribe_onChat "event" = VStr "chat:message"
   /\ get chat_unsubscribe_onChat "type" = VStr ACTIONS.UNSUBSCRIBE
   /\ get chat_unsubscribe_onChat "event" = VStr "chat:message"
   /\ fst (socketMiddleware ToString_samples (ActObject chat_subscribe_onChat) initial)
      = Normal (get chat_unsubscribe_onChat "handle"))
  /\ exists h : Func,
       get chat_unsubscribe_onChat "handle" = VFun h
       /\ registered (calls_since initial
            (snd (socketMiddleware ToString_samples
                    (ActObject chat_subscribe_onChat) initial))) = [ h ]
       /\ In (CallOn (VStr "chat:message") h)
             (calls_since initial
                (snd (socketMiddleware ToString_samples
                        (ActObject chat_subscribe_onChat) initial)))
       /\ fst (socketMiddleware ToString_samples
                 (ActObject chat_unsubscribe_onChat) onChat_listening)
          = Normal VUndefined
       /\ filter is_channel_call
             (calls_since onChat_listening
                (snd (socketMiddleware ToString_samples
                        (ActObject chat_unsubscribe_onChat) onChat_listening)))
          = [ CallRemoveListener (VStr "chat:message") h ]
       /\ chan (snd (socketMiddleware ToString_samples
                       (ActObject chat_unsubscribe_onChat) onChat_listening))
          = channel_removeListener (VStr "chat:message") h (chan onChat_listening).
Proof.
  split; [repeat split; reflexivity|].
  apply (returned_reference_unsubscribes ToString_samples
           chat_subscribe_onChat chat_unsubscribe_onChat "chat:message"
           initial onChat_listening); reflexivity.
Defined.

Lemma intent_reads_four_fields_witness :
  (is_intent (ActObject chat_emit_with_meta) = true
   /\ get chat_emit_with_meta "type" = get chat_emit "type"
   /\ get chat_emit_with_meta "event" = get chat_emit "event"
   /\ get chat_emit_with_meta "handle" = get chat_emit "handle"
   /\ get chat_emit_with_meta "data" = get chat_emit "data")
  /\ socketMiddleware ToString_samples (ActObject chat_emit_with_meta) onChat_listening
     = socketMiddleware ToString_samples (ActObject chat_emit) onChat_listening.
Proof.
  split; [repeat split; reflexivity|].
  apply (intent_reads_four_fields ToString_samples
           chat_emit_with_meta chat_emit onChat_listening); reflexivity.
Defined.

Lemma calls_independent_of_history_witness :
  fresh initial = fresh onChat_listening
  /\ calls_since initial
       (snd (socketMiddleware ToString_samples
               (ActObject chat_subscribe_onChat) initial))
     = calls_since onChat_listening
         (snd (socketMiddleware ToString_samples
                 (ActObject chat_subscribe_onChat) onChat_listening))
  /\ is_throw (fst (socketMiddleware ToString_samples
                      (ActObject chat_subscribe_onChat) initial))
     = is_throw (fst (socketMiddleware ToString_samples
                        (ActObject chat_subscribe_onChat) onChat_listening)).
Proof.
  split; [reflexivity|].
  apply (calls_independent_of_history ToString_samples
           (ActObject chat_subscribe_onChat) initial onChat_listening);
    reflexivity.
Defined.

Lemma notification_type_determines_intent_witness :
  (is_intent (ActObject chat_subscribe) = true
   /\ is_intent (ActObject chat_subscribe_onChat) = true
   /\ get chat_subscribe "event" = VStr "chat:message"
   /\ get chat_subscribe_onChat "event" = VStr "chat:message"
   /\ dispatched_types
        (calls_since initial
           (snd (socketMiddleware ToString_samples (ActObject chat_subscribe) initial)))
      = dispatched_types
          (calls_since onChat_listening
             (snd (socketMiddleware ToString_samples
                     (ActObject chat_subscribe_onChat) onChat_listening))))
  /\ get chat_subscribe "type" = get chat_subscribe_onChat "type"
  /\ "chat:message" = "chat:message".
Proof.
  split; [repeat split; reflexivity|].
  apply (notification_type_determines_intent ToString_samples
           chat_subscribe chat_subscribe_onChat "chat:message" "chat:message"
           initial onChat_listening); reflexivity.
Defined.

Lemma emit_without_event_or_data_witness :
  (get bare_emit "type" = VStr ACTIONS.EMIT
   /\ has_key bare_emit "event" = false
   /\ has_key bare_emit "data" = false)
  /\ fst (socketMiddleware ToString_samples (ActObject bare_emit) initial)
     = Normal (fst (channel_emit VUndefined VUndefined (chan initial)))
  /\ calls_since initial
       (snd (socketMiddleware ToString_samples (ActObject bare_emit) initial))
     = [ CallDispatch [ ("type", VStr "EMIT: undefined");
                        ("action", VStr "SOCKET.IO EMIT");
                        ("data", VUndefined) ];
         CallEmit VUndefined VUndefined ].
Proof.
  split; [repeat split; reflexivity|].
  apply (emit_without_event_or_data ToString_samples bare_emit initial);
    reflexivity.
Defined.

Lemma default_handlers_are_distinct_witness :
  (log initial = []
   /\ forallb (fun a => negb (carries_closure a)) three_subscriptions = true)
  /\ NoDup (closure_refs
              (registered
                 (log (dispatch_all ToString_samples three_subscriptions initial)))).
Proof.
  split; [split; reflexivity|].
  apply (default_handlers_are_distinct ToString_samples three_subscriptions initial);
    reflexivity.
Defined.

Lemma subscribe_then_unsubscribe_restores_witness :
  (get chat_subscribe "type" = VStr ACTIONS.SUBSCRIBE
   /\ get chat_subscribe "event" = VStr "chat:message"
   /\ get (actionCreator.unsubscribe "chat:message"
             (VFun (Closure 0 (VStr "chat:message")))) "type"
      = VStr ACTIONS.UNSUBSCRIBE
   /\ get (actionCreator.unsubscribe "chat:message"
             (VFun (Closure 0 (VStr "chat:message")))) "event"
      = VStr "chat:message"
   /\ fst (socketMiddleware ToString_samples (ActObject chat_subscribe)
             onChat_listening)
      = Normal (VFun (Closure 0 (VStr "chat:message")))
   /\ get (actionCreator.unsubscribe "chat:message"
             (VFun (Closure 0 (VStr "chat:message")))) "handle"
      = VFun (Closure 0 (VStr "chat:message"))
   /\ existsb (Registry.same_entry (VStr "chat:message")
                 (Closure 0 (VStr "chat:message")))
        (Registry.listeners (chan onChat_listening)) = false)
  /\ fst (socketMiddleware ToString_samples
            (ActObject (actionCreator.unsubscribe "chat:message"
                          (VFun (Closure 0 (VStr "chat:message")))))
            (snd (socketMiddleware ToString_samples (ActObject chat_subscribe)
                    onChat_listening)))
     = Normal VUndefined
  /\ chan (snd (socketMiddleware ToString_samples
                  (ActObject (actionCreator.unsubscribe "chat:message"
                                (VFun (Closure 0 (VStr "chat:message")))))
                  (snd (socketMiddleware ToString_samples
                          (ActObject chat_subscribe) onChat_listening))))
     = chan onChat_listening.
Proof.
  split; [repeat split; reflexivity|].
  apply (subscribe_then_unsubscribe_restores ToString_samples
           chat_subscribe
           (actionCreator.unsubscribe "chat:message"
              (VFun (Closure 0 (VStr "chat:message"))))
           "chat:message" (Closure 0 (VStr "chat:message")) onChat_listening);
    reflexivity.
Defined.

Lemma throws_iff_unsubscribe_without_function_witness :
  primitive_event (ActObject chat_unsubscribe_42) = true
  /\ ((exists message : string,
         fst (socketMiddleware ToString_samples (ActObject chat_unsubscribe_42)
                onChat_listening) = Throw message)
      <-> exists o : Obj,
            ActObject chat_unsubscribe_42 = ActObject o
            /\ get o "type" = VStr ACTIONS.UNSUBSCRIBE
            /\ is_function (get o "handle") = false).
Proof.
  split; [reflexivity|].
  apply (throws_iff_unsubscribe_without_function ToString_samples
           (ActObject chat_unsubscribe_42) onChat_listening); reflexivity.
Defined.

Lemma one_operation_per_action_witness :
  primitive_event (ActObject chat_emit) = true
  /\ log (snd (socketMiddleware ToString_samples (ActObject chat_emit) initial))
     = log initial ++
       calls_since initial
         (snd (socketMiddleware ToString_samples (ActObject chat_emit) initial))
  /\ length (dispatched
               (calls_since initial
                  (snd (socketMiddleware ToString_samples
                          (ActObject chat_emit) initial))))
     = (if is_intent (ActObject chat_emit) then 1 else 0)
  /\ length (filter is_channel_call
               (calls_since initial
                  (snd (socketMiddleware ToString_samples
                          (ActObject chat_emit) initial))))
     + length (filter is_next_call
                 (calls_since initial
                    (snd (socketMiddleware ToString_samples
                            (ActObject chat_emit) initial))))
     = (if is_throw (fst (socketMiddleware ToString_samples
                            (ActObject chat_emit) initial))
        then 0 else 1)
  /\ forall (f : Func) (d : Value),
       ~ In (CallListener f d)
            (calls_since initial
               (snd (socketMiddleware ToString_samples
                       (ActObject chat_emit) initial))).
Proof.
  split; [reflexivity|].
  apply (one_operation_per_action ToString_samples (ActObject chat_emit) initial);
    reflexivity.
Defined.

(** The sample conversion on the values the samples convert. *)
Example ToString_samples_values :
  ToString_samples VUndefined = "undefined"
  /\ ToString_samples (VNum 7) = "7"
  /\ ToString_samples (VNum (-42)) = "-42"
  /\ ToString_samples (VNum 0) = "0"
  /\ ToString_samples (VStr "chat:message") = "chat:message".
Proof. repeat split; reflexivity. Qed.
